(** * Wavelink [Player] (src/wavelink/player.py): a shallow embedding

    Python values are modelled by [pyval]; dicts are association lists in
    insertion order (Python dicts are ordered and [payload.update] keeps the
    position of an existing key).  Python floats are IEEE 754 binary64
    numbers, the Standard Library's [spec_float] with 53 bits of precision,
    and a [datetime] is its count of microseconds since the epoch (UTC).
    The player and the node it talks to form one state
    [world]; node-facing [send] calls append to the node's message log.
    Methods run in a small state-and-exception monad [M]. *)

From Stdlib Require Import String Ascii List ZArith QArith Qround Bool Lia.
From Stdlib Require Import Floats.SpecFloat.
Import ListNotations.
Open Scope string_scope.
Set Warnings "-register-all".

(** ** Python floats *)

(** A Python [float]: an IEEE 754 binary64 number. *)
Definition float : Type := spec_float.
Definition prec : Z := 53.
Definition emax : Z := 1024.

(** The IEEE operations, rounding to nearest, ties to even. *)
Definition fadd : float -> float -> float := SFadd prec emax.
Definition fmul : float -> float -> float := SFmul prec emax.
Definition fdiv : float -> float -> float := SFdiv prec emax.

(** Python's [a < b] and [a <= b] on floats ([False] when either is a NaN). *)
Definition flt : float -> float -> bool := SFltb.

(** [0.0] *)
Definition fzero : float := S754_zero false.

(** The exact value of a finite float ([0] for the others). *)
Definition F2Q (x : float) : Q :=
  match x with
  | S754_finite s m e =>
      let v := match e with
               | Z0 => inject_Z (Zpos m)
               | Zpos _ => inject_Z (Zpos m * 2 ^ e)
               | Zneg p => (Zpos m # Pos.pow 2 p)%Q
               end in
      if s then Qopp v else v
  | _ => 0%Q
  end.

(** The float nearest to a rational, ties to even: the IEEE division of its
    numerator by its denominator ([+inf] or [-inf] beyond the largest
    float). *)
Definition Q2F (q : Q) : float :=
  match Qnum q with
  | Z0 => S754_zero false
  | Zpos n =>
      let '(m, e, l) := SFdiv_core_binary prec emax (Zpos n) 0 (Zpos (Qden q)) 0 in
      binary_round_aux prec emax false m e l
  | Zneg n =>
      let '(m, e, l) := SFdiv_core_binary prec emax (Zpos n) 0 (Zpos (Qden q)) 0 in
      binary_round_aux prec emax true m e l
  end.

(** The integer nearest to a rational, ties to the even one. *)
Definition round_half_even (x : Q) : Z :=
  let f := Qfloor x in
  let r := (x - inject_Z f)%Q in
  if negb (Qle_bool (1 # 2) r) then f
  else if negb (Qle_bool r (1 # 2)) then (f + 1)%Z
  else if Z.even f then f else (f + 1)%Z.

(** ** Python values *)

Inductive pyval : Type :=
| PNone
| PBool (b : bool)
| PInt (z : Z)
| PFloat (f : float)
| PStr (s : string)
| PList (l : list pyval)
| PTuple (l : list pyval)
| PDict (d : list (string * pyval)).

(** Python's [type(x) is float] and [type(x) is list]. *)
Definition is_float (v : pyval) : bool :=
  match v with PFloat _ => true | _ => false end.

Definition is_list (v : pyval) : bool :=
  match v with PList _ => true | _ => false end.

(** Python truthiness ([if not x]). *)
Definition truthy (v : pyval) : bool :=
  match v with
  | PNone => false
  | PBool b => b
  | PInt z => negb (Z.eqb z 0)
  | PFloat f => negb (SFeqb f fzero)
  | PStr s => negb (String.eqb s "")
  | PList l | PTuple l => negb (Nat.eqb (length l) 0)
  | PDict d => negb (Nat.eqb (length d) 0)
  end.

(** ** Dicts as association lists *)

Fixpoint dict_get (k : string) (d : list (string * pyval)) : option pyval :=
  match d with
  | [] => None
  | (k', v) :: d' => if String.eqb k k' then Some v else dict_get k d'
  end.

(** [d[k] = v]: overwrite in place, or append a new key. *)
Fixpoint dict_set (k : string) (v : pyval) (d : list (string * pyval))
  : list (string * pyval) :=
  match d with
  | [] => [(k, v)]
  | (k', v') :: d' =>
      if String.eqb k k' then (k', v) :: d' else (k', v') :: dict_set k v d'
  end.

(** [d.update(e)] and [{**d, **e}]. *)
Definition dict_update (d e : list (string * pyval)) : list (string * pyval) :=
  fold_left (fun acc kv => dict_set (fst kv) (snd kv) acc) e d.

Definition dict_has (k : string) (d : list (string * pyval)) : bool :=
  match dict_get k d with Some _ => true | None => false end.

(** [{"sessionId", "event"} == d.keys()] *)
Definition keys_are_session_event (d : list (string * pyval)) : bool :=
  forallb (fun k => String.eqb k "sessionId" || String.eqb k "event") (map fst d)
  && dict_has "sessionId" d && dict_has "event" d.

(** ** Exceptions and the method monad *)

Inductive exn : Type :=
| KeyError (k : pyval)
| IndexError
| TypeError
| ValueError
| AttributeError (name : string)
| OverflowError
| OSError
| Deformed (msg : string)          (* [raise Exception("Deformed ...")] *)
| HostError.                       (* an exception raised by the host client *)

Inductive result (A : Type) : Type :=
| Ok (a : A)
| Err (e : exn).
Arguments Ok {A} a.
Arguments Err {A} e.

Definition rbind {A B} (r : result A) (f : A -> result B) : result B :=
  match r with Ok a => f a | Err e => Err e end.

Notation "x <-? r ;; k" := (rbind r (fun x => k))
  (at level 61, r at next level, right associativity).

(** [c[k]] for the containers the player indexes. *)
Definition py_getitem (c : pyval) (k : pyval) : result pyval :=
  match c, k with
  | PDict d, PStr s =>
      match dict_get s d with Some v => Ok v | None => Err (KeyError k) end
  | PDict _, _ => Err (KeyError k)
  | (PList l | PTuple l), PInt n =>
      let i := if (n <? 0)%Z then (Z.of_nat (length l) + n)%Z else n in
      if ((i <? 0) || (Z.of_nat (length l) <=? i))%Z then Err IndexError
      else match nth_error l (Z.to_nat i) with
           | Some v => Ok v | None => Err IndexError end
  | PStr s, PInt n =>
      let i := if (n <? 0)%Z then (Z.of_nat (String.length s) + n)%Z else n in
      if ((i <? 0) || (Z.of_nat (String.length s) <=? i))%Z then Err IndexError
      else Ok (PStr (String.substring (Z.to_nat i) 1 s))
  | _, _ => Err TypeError
  end.

Fixpoint rmap {A B} (f : A -> result B) (l : list A) : result (list B) :=
  match l with
  | [] => Ok []
  | x :: l' => y <-? f x ;; ys <-? rmap f l' ;; Ok (y :: ys)
  end.

(** [str(n)] for a Python int. *)
Fixpoint digits_of (fuel : nat) (n : Z) (acc : string) : string :=
  let d := String (ascii_of_nat (48 + Z.to_nat (n mod 10))) acc in
  match fuel with
  | O => d
  | S f => if (n <? 10)%Z then d else digits_of f (n / 10) d
  end.

Definition py_str_int (z : Z) : string :=
  let n := Z.abs z in
  let s := digits_of (Z.to_nat (Z.log2 n)) n "" in
  if (z <? 0)%Z then "-" ++ s else s.

(** Python's [round(x, 1)] on a float (CPython's [double_round]): the
    exact value of [x] is rounded to one decimal, ties to even, and the
    decimal string read back as the nearest float; a result rounded to zero
    keeps the sign of [x]; infinities and NaN are returned unchanged. *)
Definition py_round1 (x : float) : result float :=
  match x with
  | S754_finite s _ _ =>
      match round_half_even (F2Q x * 10) with
      | Z0 => Ok (S754_zero s)
      | z => match Q2F (z # 10) with
             | S754_infinity _ => Err OverflowError
             | f => Ok f
             end
      end
  | _ => Ok x
  end.

(** [a / b] on Python ints, [b > 0]: the float nearest to the exact
    quotient; [OverflowError] when it is too large for a float. *)
Definition py_int_truediv (a : Z) (b : positive) : result float :=
  match Q2F (a # b) with
  | S754_infinity _ => Err OverflowError
  | f => Ok f
  end.

(** [x / 1000] for the fields of a node state update. *)
Definition py_div1000 (v : pyval) : result float :=
  match v with
  | PInt z => py_int_truediv z 1000
  | PBool b => py_int_truediv (if b then 1 else 0) 1000
  | PFloat f => Ok (fdiv f (Q2F 1000))
  | _ => Err TypeError
  end.

(** Python's [min(a, b)] on floats: [b] if [b < a], else [a]. *)
Definition py_min (a b : float) : float :=
  if flt b a then b else a.

(** ** Datetimes *)

(** An aware [datetime] in UTC, as microseconds since the epoch. *)
Definition datetime : Type := Z.

(** The integer part of a rational, rounded toward zero ([modf]). *)
Definition Qtrunc (x : Q) : Z :=
  if Qle_bool 0 x then Qfloor x else (- Qfloor (- x))%Z.

(** [datetime.fromtimestamp(t, timezone.utc)] for a float [t] (CPython's
    [_PyTime_DoubleToDenominator] then [gmtime]): the fractional part is
    scaled to microseconds in floating point and rounded half to even.  NaN
    raises [ValueError]; an integer part outside [time_t] (as doubles
    compare) raises [OverflowError]; a year that does not fit a C [int]
    once [1900] is subtracted ([gmtime] fails) raises [OSError]; a year
    outside [1..9999] raises [ValueError]. *)
Definition fromtimestamp_utc (t : float) : result datetime :=
  match t with
  | S754_nan => Err ValueError
  | S754_infinity _ => Err OverflowError
  | _ =>
      let x := F2Q t in
      let ip := Qtrunc x in
      let fp := round_half_even
                  (F2Q (fmul (Q2F (x - inject_Z ip)) (Q2F 1000000))) in
      let '(ip, fp) := if (1000000 <=? fp)%Z then ((ip + 1)%Z, (fp - 1000000)%Z)
                       else if (fp <? 0)%Z then ((ip - 1)%Z, (fp + 1000000)%Z)
                       else (ip, fp) in
      if ((ip <? - 2 ^ 63) || (2 ^ 63 <? ip))%Z then Err OverflowError
      else if ((ip <? -67768040609827200) || (67768036191676800 <=? ip))%Z
      then Err OSError
      else if ((ip <? -62135596800) || (253402300800 <=? ip))%Z
      then Err ValueError
      else Ok (ip * 1000000 + fp)%Z
  end.

(** [timedelta.total_seconds()] of a difference of [d] microseconds: the
    int [d] divided by the int [10**6]. *)
Definition total_seconds (d : Z) : float := Q2F (d # 1000000).

(** [d.get(k, default)] *)
Definition py_dict_get (c : pyval) (k : string) (default : pyval) : result pyval :=
  match c with
  | PDict d => match dict_get k d with Some v => Ok v | None => Ok default end
  | _ => Err (AttributeError "get")
  end.

(** ** The player and its node *)

(** A playable track ([abc.Playable]): identifier, duration in seconds, and
    whether it is a [PartialTrack] still to be resolved. *)
Record track : Type := mk_track {
  track_id : string;
  duration : float;
  is_partial : bool
}.

Definition message := list (string * pyval).

(** The player's attributes together with the node state it touches:
    [node_players] is the node's registered-player list (players by
    identity), [sent] the messages sent on the node's websocket, and
    [cleanups] counts the runs of the host's [VoiceProtocol.cleanup].
    [None] in [last_update], [last_position] and [connected] is an attribute
    that is [MISSING] or was never assigned. *)
Record world : Type := mk_world {
  w_me : nat;
  channel : pyval;
  guild_id : string;
  node_players : list nat;
  sent : list message;
  voice_state : list (string * pyval);
  last_update : option datetime;
  last_position : option float;
  volume : Z;
  paused : bool;
  source : option track;
  connected : option bool;
  cleanups : nat
}.

Definition upd_channel c w := mk_world (w_me w) c (guild_id w) (node_players w)
  (sent w) (voice_state w) (last_update w) (last_position w) (volume w)
  (paused w) (source w) (connected w) (cleanups w).
Definition upd_node_players l w := mk_world (w_me w) (channel w) (guild_id w) l
  (sent w) (voice_state w) (last_update w) (last_position w) (volume w)
  (paused w) (source w) (connected w) (cleanups w).
Definition upd_sent l w := mk_world (w_me w) (channel w) (guild_id w)
  (node_players w) l (voice_state w) (last_update w) (last_position w)
  (volume w) (paused w) (source w) (connected w) (cleanups w).
Definition upd_voice_state vs w := mk_world (w_me w) (channel w) (guild_id w)
  (node_players w) (sent w) vs (last_update w) (last_position w) (volume w)
  (paused w) (source w) (connected w) (cleanups w).
Definition upd_last_update lu w := mk_world (w_me w) (channel w) (guild_id w)
  (node_players w) (sent w) (voice_state w) lu (last_position w) (volume w)
  (paused w) (source w) (connected w) (cleanups w).
Definition upd_last_position lp w := mk_world (w_me w) (channel w) (guild_id w)
  (node_players w) (sent w) (voice_state w) (last_update w) lp (volume w)
  (paused w) (source w) (connected w) (cleanups w).
Definition upd_volume v w := mk_world (w_me w) (channel w) (guild_id w)
  (node_players w) (sent w) (voice_state w) (last_update w) (last_position w)
  v (paused w) (source w) (connected w) (cleanups w).
Definition upd_paused b w := mk_world (w_me w) (channel w) (guild_id w)
  (node_players w) (sent w) (voice_state w) (last_update w) (last_position w)
  (volume w) b (source w) (connected w) (cleanups w).
Definition upd_source s w := mk_world (w_me w) (channel w) (guild_id w)
  (node_players w) (sent w) (voice_state w) (last_update w) (last_position w)
  (volume w) (paused w) s (connected w) (cleanups w).
Definition upd_connected c w := mk_world (w_me w) (channel w) (guild_id w)
  (node_players w) (sent w) (voice_state w) (last_update w) (last_position w)
  (volume w) (paused w) (source w) c (cleanups w).
Definition upd_cleanups n w := mk_world (w_me w) (channel w) (guild_id w)
  (node_players w) (sent w) (voice_state w) (last_update w) (last_position w)
  (volume w) (paused w) (source w) (connected w) n.

(** ** The method monad: state and exceptions *)

Definition M (A : Type) : Type := world -> result A * world.

Definition ret {A} (a : A) : M A := fun w => (Ok a, w).
Definition bind {A B} (m : M A) (f : A -> M B) : M B :=
  fun w => match m w with
           | (Ok a, w') => f a w'
           | (Err e, w') => (Err e, w')
           end.
Definition raise {A} (e : exn) : M A := fun w => (Err e, w).
Definition get : M world := fun w => (Ok w, w).
Definition modify (f : world -> world) : M unit := fun w => (Ok tt, f w).
Definition lift {A} (r : result A) : M A :=
  fun w => match r with Ok a => (Ok a, w) | Err e => (Err e, w) end.

Notation "x <- m ;; k" := (bind m (fun x => k))
  (at level 61, m at next level, right associativity).
Notation "m ;;; k" := (bind m (fun _ => k))
  (at level 61, right associativity).

(** [try: body finally: fin] -- an exception of [fin] replaces the body's. *)
Definition try_finally (body fin : M unit) : M unit :=
  fun w => match body w with
           | (r, w1) => match fin w1 with
                        | (Ok _, w2) => (r, w2)
                        | (Err e, w2) => (Err e, w2)
                        end
           end.

(** [self.node._websocket.send( **payload)] *)
Definition send (m : message) : M unit :=
  modify (fun w => upd_sent (sent w ++ [m])%list w).

(** ** [Player.__init__] *)

(** [Player(client, channel, node=node)]: the new player [me] appends itself
    to [node._players]; [_connected] is not assigned. *)
Definition init (me : nat) (chan : pyval) (gid : string) (players : list nat)
  (log : list message) : world :=
  {| w_me := me; channel := chan; guild_id := gid;
     node_players := (players ++ [me])%list; sent := log;
     voice_state := []; last_update := None; last_position := None;
     volume := 100; paused := false; source := None;
     connected := None; cleanups := 0 |}.

(** ** Queries *)

Definition is_connected : M bool :=
  fun w => match connected w with
           | Some b => (Ok b, w)
           | None => (Err (AttributeError "_connected"), w)
           end.

Definition is_playing : M bool :=
  c <- is_connected ;;
  w <- get ;;
  ret (c && match source w with Some _ => true | None => false end).

Definition is_paused : M bool := w <- get ;; ret (paused w).

(** The [position] property at the time [now] that
    [datetime.datetime.now(datetime.timezone.utc)] returns: the int [0], or
    a float.  An unassigned ([MISSING]) [last_update] or [last_position]
    makes the subtraction, the addition or [min] raise [TypeError]. *)
Definition position (now : datetime) : M pyval :=
  p <- is_playing ;;
  if negb p then ret (PInt 0) else
  pa <- is_paused ;;
  w <- get ;;
  if pa then
    match source w with
    | None => raise (AttributeError "duration")
    | Some t =>
        match last_position w with
        | Some lp => ret (PFloat (py_min lp (duration t)))
        | None => raise TypeError
        end
    end
  else
    match last_update w with
    | None => raise TypeError
    | Some lu =>
        let delta := total_seconds (now - lu) in
        match last_position w with
        | None => raise TypeError
        | Some lp =>
            pos <- lift (py_round1 (fadd lp delta)) ;;
            match source w with
            | None => raise (AttributeError "duration")
            | Some t => ret (PFloat (py_min pos (duration t)))
            end
        end
    end.

(** [update_state(state)]: [last_update] is assigned before the position is
    read, so an exception there leaves the new [last_update] in place. *)
Definition update_state (state : pyval) : M unit :=
  s <- lift (py_getitem state (PStr "state")) ;;
  t <- lift (py_dict_get s "time" (PInt 0)) ;;
  tf <- lift (py_div1000 t) ;;
  lu <- lift (fromtimestamp_utc tf) ;;
  modify (upd_last_update (Some lu)) ;;;
  p <- lift (py_dict_get s "position" (PInt 0)) ;;
  pf <- lift (py_div1000 p) ;;
  lp <- lift (py_round1 pf) ;;
  modify (upd_last_position (Some lp)).

(** ** Voice handshake *)

Definition voice_update_base (w : world) : message :=
  [("op", PStr "voiceUpdate"); ("guildId", PStr (guild_id w))].

Definition dispatch_voice_update (vs : list (string * pyval)) : M unit :=
  w <- get ;;
  if keys_are_session_event (voice_state w)
  then send (voice_update_base w ++ vs)%list
  else ret tt.

Definition on_voice_server_update (data : pyval) : M unit :=
  modify (fun w => upd_voice_state (dict_set "event" data (voice_state w)) w) ;;;
  w <- get ;;
  dispatch_voice_update (voice_state w).

Section Host.

(** [self.guild.get_channel(int(channel_id))]: resolution of a channel id by
    the host client, which may raise (e.g. [int()] on a non-numeric id). *)
Variable resolve_channel : pyval -> result pyval.

Definition on_voice_state_update (data : list (string * pyval)) : M unit :=
  sid <- lift (py_getitem (PDict data) (PStr "session_id")) ;;
  modify (fun w => upd_voice_state (dict_set "sessionId" sid (voice_state w)) w) ;;;
  channel_id <- lift (py_getitem (PDict data) (PStr "channel_id")) ;;
  if negb (truthy channel_id) then
    modify (upd_voice_state [])
  else
    c <- lift (resolve_channel channel_id) ;;
    modify (upd_channel c) ;;;
    w <- get ;;
    dispatch_voice_update (dict_set "event" (PDict data) (voice_state w)).

(** The two inbound voice notifications. *)
Inductive notification : Type :=
| ServerUpdate (data : pyval)
| StateUpdate (data : list (string * pyval)).

Definition handle (n : notification) : M unit :=
  match n with
  | ServerUpdate d => on_voice_server_update d
  | StateUpdate d => on_voice_state_update d
  end.

(** Notifications delivered one after the other; an exception ends its
    handler only, the next notification sees the state it left. *)
Fixpoint run (ns : list notification) (w : world) : world :=
  match ns with
  | [] => w
  | n :: ns' => run ns' (snd (handle n w))
  end.

End Host.

(** ** Playback lifecycle *)

Section Search.

(** [PartialTrack._search()]: resolution of a partial track, outside the
    player. *)
Variable search_track : track -> result track.

(** [play(source, replace, start, end)]; [None] is Python's [None]. The
    condition [replace or not self.is_playing()] short-circuits. *)
Definition play (src : track) (replace : bool) (start end_ : Z)
  : M (option track) :=
  go <- (if replace then ret true else p <- is_playing ;; ret (negb p)) ;;
  if negb go then ret None else
  update_state (PDict [("state", PDict [])]) ;;;
  modify (upd_paused false) ;;;
  src' <- (if is_partial src then lift (search_track src) else ret src) ;;
  modify (upd_source (Some src')) ;;;
  w <- get ;;
  let payload :=
    ([("op", PStr "play"); ("guildId", PStr (guild_id w));
      ("track", PStr (track_id src')); ("noReplace", PBool (negb replace));
      ("startTime", PStr (py_str_int start))]
     ++ (if (0 <? end_)%Z then [("endTime", PStr (py_str_int end_))] else []))%list in
  send payload ;;;
  ret (Some src').

End Search.

Definition set_volume (v : Z) : M unit :=
  modify (upd_volume (Z.max (Z.min v 1000) 0)) ;;;
  w <- get ;;
  send [("op", PStr "volume"); ("guildId", PStr (guild_id w));
        ("volume", PInt (volume w))].

(** [connect]; [join] is the outcome of the host's
    [guild.change_voice_state(channel=self.channel)]. *)
Definition connect (join : result unit) : M unit :=
  lift join ;;;
  modify (upd_connected (Some true)).

(** [list.remove(x)]: drop the first occurrence, [None] when [x] is absent
    (Python raises [ValueError]). *)
Fixpoint list_remove (x : nat) (l : list nat) : option (list nat) :=
  match l with
  | [] => None
  | y :: l' =>
      if Nat.eqb x y then Some l'
      else match list_remove x l' with
           | Some l'' => Some (y :: l'')
           | None => None
           end
  end.

(** Modelled from the spec: [Node.players], the node's registered-player
    list ([Node] is not among the repository's files under src/); the spec
    describes it as a mutable collection supporting append and remove, the
    same list [__init__] appends to. Removing an absent player raises
    [ValueError], as Python's [list.remove] does. *)
Definition node_players_remove : M unit :=
  w <- get ;;
  match list_remove (w_me w) (node_players w) with
  | Some l => modify (upd_node_players l)
  | None => raise ValueError
  end.

(** [disconnect(force)]; [leave] is the outcome of the host's
    [guild.change_voice_state(channel=None)]. *)
Definition disconnect (leave : result unit) : M unit :=
  try_finally
    (lift leave ;;; modify (upd_connected (Some false)))
    (node_players_remove ;;; modify (fun w => upd_cleanups (S (cleanups w)) w)).

(** [move_to(channel)]; [change] is the outcome of the host's
    [guild.change_voice_state(channel=channel)].  The method assigns no
    attribute of the player. *)
Definition move_to (change : result unit) : M unit :=
  lift change.

(** ** Filter request builder ([set_filters]) *)

Definition normalize_equalizer (eq : pyval) : result pyval :=
  match eq with
  | PList levels =>
      bands <-? rmap (fun i => b <-? py_getitem i (PInt 0) ;;
                              g <-? py_getitem i (PInt 1) ;;
                              Ok (PDict [("band", b); ("gain", g)])) levels ;;
      Ok (PDict [("equalizer", PList bands)])
  | _ => Ok eq
  end.

(** [if type(x) is float: x = {key: {field: x}}] *)
Definition normalize_float (key field : string) (v : pyval) : pyval :=
  match v with
  | PFloat q => PDict [(key, PDict [(field, PFloat q)])]
  | _ => v
  end.

(** [type(inner[f1]) is not float or type(inner[f2]) is not float or ...] *)
Fixpoint check_fields (inner : pyval) (fields : list string) (msg : string)
  : result unit :=
  match fields with
  | [] => Ok tt
  | f :: fs =>
      v <-? py_getitem inner (PStr f) ;;
      if is_float v then check_fields inner fs msg else Err (Deformed msg)
  end.

(** [payload.update(arg)] *)
Definition merge_into (payload : message) (arg : pyval) : result message :=
  match arg with
  | PDict d => Ok (dict_update payload d)
  | _ => Err TypeError
  end.

Definition apply_equalizer (payload : message) (eq : pyval) : result message :=
  match eq with
  | PNone => Ok payload
  | _ =>
      v <-? py_getitem eq (PStr "equalizer") ;;
      if is_list v then merge_into payload eq
      else Err (Deformed "Deformed equalizerjson")
  end.

Definition apply_bundle (payload : message) (arg : pyval) (key : string)
  (fields : list string) (msg : string) : result message :=
  match arg with
  | PNone => Ok payload
  | _ =>
      inner <-? py_getitem arg (PStr key) ;;
      _ <-? check_fields inner fields msg ;;
      merge_into payload arg
  end.

Definition filters_base (gid : string) : message :=
  [("op", PStr "filters"); ("guildId", PStr gid)].

(** The payload [set_filters] builds, or the exception it raises before
    sending. *)
Definition filters_payload (gid : string)
  (eq ka ts tr vi ro di cm lp : pyval) : result message :=
  eq' <-? normalize_equalizer eq ;;
  let ro' := normalize_float "rotation" "rotationHz" ro in
  let lp' := normalize_float "lowPass" "smoothing" lp in
  p1 <-? apply_equalizer (filters_base gid) eq' ;;
  p2 <-? apply_bundle p1 ka "karaoke"
           ["level"; "monoLevel"; "filterBand"; "filterWidth"]
           "Deformed karaokejson" ;;
  p3 <-? apply_bundle p2 ts "timescale" ["speed"; "pitch"; "rate"]
           "Deformed timescalejson" ;;
  p4 <-? apply_bundle p3 tr "tremolo" ["frequency"; "depth"]
           "Deformed tremolojson" ;;
  p5 <-? apply_bundle p4 vi "vibrato" ["frequency"; "depth"]
           "Deformed vibratojson" ;;
  p6 <-? apply_bundle p5 ro' "rotation" ["rotationHz"]
           "Deformed rotationjson" ;;
  p7 <-? apply_bundle p6 di "distortion"
           ["sinOffset"; "sinScale"; "cosOffset"; "cosScale";
            "tanOffset"; "tanScale"; "offset"; "scale"]
           "Deformed distortionjson" ;;
  p8 <-? apply_bundle p7 cm "channelMix"
           ["leftToLeft"; "leftToRight"; "rightToLeft"; "rightToRight"]
           "Deformed channelMix" ;;
  p9 <-? apply_bundle p8 lp' "lowPass" ["smoothing"]
           "Deformed lowPassjson" ;;
  Ok p9.

Definition set_filters (eq ka ts tr vi ro di cm lp : pyval) : M unit :=
  w <- get ;;
  payload <- lift (filters_payload (guild_id w) eq ka ts tr vi ro di cm lp) ;;
  send payload.

(** The single-bundle wrappers: [set_equalizer], [set_karaoke], ... each
    call [set_filters] with only their own argument. *)
Definition set_equalizer (eq : pyval) : M unit :=
  set_filters eq PNone PNone PNone PNone PNone PNone PNone PNone.
Definition set_karaoke (ka : pyval) : M unit :=
  set_filters PNone ka PNone PNone PNone PNone PNone PNone PNone.
Definition set_timescale (ts : pyval) : M unit :=
  set_filters PNone PNone ts PNone PNone PNone PNone PNone PNone.
Definition set_tremolo (tr : pyval) : M unit :=
  set_filters PNone PNone PNone tr PNone PNone PNone PNone PNone.
Definition set_vibrato (vi : pyval) : M unit :=
  set_filters PNone PNone PNone PNone vi PNone PNone PNone PNone.
Definition set_rotation (ro : pyval) : M unit :=
  set_filters PNone PNone PNone PNone PNone ro PNone PNone PNone.
Definition set_distortion (di : pyval) : M unit :=
  set_filters PNone PNone PNone PNone PNone PNone di PNone PNone.
Definition set_channelMix (cm : pyval) : M unit :=
  set_filters PNone PNone PNone PNone PNone PNone PNone cm PNone.
Definition set_lowPass (lp : pyval) : M unit :=
  set_filters PNone PNone PNone PNone PNone PNone PNone PNone lp.

(** ** Other playback commands *)

(** [stop()]: send "stop", then forget the current source. *)
Definition stop : M unit :=
  w <- get ;;
  send [("op", PStr "stop"); ("guildId", PStr (guild_id w))] ;;;
  modify (upd_source None).

(** [set_pause(pause)]: send "pause", then store the flag. *)
Definition set_pause (pause : bool) : M unit :=
  w <- get ;;
  send [("op", PStr "pause"); ("guildId", PStr (guild_id w));
        ("pause", PBool pause)] ;;;
  modify (upd_paused pause).

Definition pause : M unit := set_pause true.

Definition resume : M unit := set_pause false.

(** [seek(position)]: the position is forwarded as given (an int of
    milliseconds, or [None]). *)
Definition seek (pos : pyval) : M unit :=
  w <- get ;;
  send [("op", PStr "seek"); ("guildId", PStr (guild_id w));
        ("position", pos)].

(** ** Example inputs *)

Definition demo_track : track := mk_track "QAAA" (Q2F 100) false.

(** A connected player playing [demo_track], unpaused, whose last node
    update reported position [0.0] at time [10] s. *)
Definition demo_world : world :=
  {| w_me := 1; channel := PStr "42"; guild_id := "7";
     node_players := [0; 1]%nat; sent := [];
     voice_state := []; last_update := Some 10000000%Z; last_position := Some fzero;
     volume := 100; paused := false; source := Some demo_track;
     connected := Some true; cleanups := 0 |}.

Definition demo_resolve (ch : pyval) : result pyval := Ok ch.

Definition demo_search (t : track) : result track := Ok t.

(** * Properties *)

(** ** Volume *)

(** C4: for every integer [v], [set_volume v] stores [clamp(v, 0, 1000)],
    which lies in [0, 1000], and sends one "volume" message carrying that
    value. *)
Theorem set_volume_clamps (v : Z) (w : world) :
  let vol := Z.max (Z.min v 1000) 0 in
  fst (set_volume v w) = Ok tt /\
  volume (snd (set_volume v w)) = vol /\
  (0 <= volume (snd (set_volume v w)) <= 1000)%Z /\
  sent (snd (set_volume v w)) =
    (sent w ++ [[("op", PStr "volume"); ("guildId", PStr (guild_id w));
                 ("volume", PInt vol)]])%list.
Proof.
  cbn. repeat split; lia.
Qed.

(** ** Play *)

(** C8: while the player is playing (connected, a current source set),
    [play src false start end] returns [None], sends nothing and leaves the
    whole state unchanged. *)
Theorem play_no_replace_noop (search_track : track -> result track)
  (src : track) (start end_ : Z) (w : world) (t : track)
  (Hconn : connected w = Some true) (Hsrc : source w = Some t) :
  play search_track src false start end_ w = (Ok None, w).
Proof.
  destruct w as [me ch gid np log vs lu lp vol pa so co cl].
  cbn in Hconn, Hsrc. subst co so. reflexivity.
Qed.

(** ** Connectivity queries of a fresh player *)

(** C10: on a freshly constructed player, [_connected] is unassigned, so
    [is_connected()], [is_playing()] and [position] all raise an
    [AttributeError]; after a successful [connect] the query answers. *)
Theorem fresh_player_queries_raise (me : nat) (chan : pyval) (gid : string)
  (players : list nat) (log : list message) (now : datetime) :
  let w := init me chan gid players log in
  fst (is_connected w) = Err (AttributeError "_connected") /\
  fst (is_playing w) = Err (AttributeError "_connected") /\
  fst (position now w) = Err (AttributeError "_connected") /\
  fst (is_connected (snd (connect (Ok tt) w))) = Ok true.
Proof.
  cbn. repeat split.
Qed.

(** ** Disconnection signalled by a voice-state update *)

(** C7: a voice-state update whose [channel_id] is falsy clears the whole
    voice-state mapping and sends nothing; a following voice-server update
    alone then sends nothing either. *)
Theorem state_update_empty_channel_clears
  (resolve_channel : pyval -> result pyval) (data : list (string * pyval))
  (sid ch ev : pyval) (w : world)
  (Hsid : dict_get "session_id" data = Some sid)
  (Hch : dict_get "channel_id" data = Some ch)
  (Hfalsy : truthy ch = false) :
  on_voice_state_update resolve_channel data w = (Ok tt, upd_voice_state [] w) /\
  voice_state (upd_voice_state [] w) = [] /\
  sent (snd (on_voice_server_update ev (upd_voice_state [] w))) = sent w.
Proof.
  unfold on_voice_state_update, bind, lift, modify, get. cbn.
  rewrite Hsid. cbn. rewrite Hch. cbn. rewrite Hfalsy. cbn.
  repeat split.
Qed.

(** ** Filter request builder *)

Lemma set_filters_eq (eq ka ts tr vi ro di cm lp : pyval) (w : world) :
  set_filters eq ka ts tr vi ro di cm lp w =
  match filters_payload (guild_id w) eq ka ts tr vi ro di cm lp with
  | Ok p => (Ok tt, upd_sent (sent w ++ [p])%list w)
  | Err e => (Err e, w)
  end.
Proof.
  unfold set_filters, bind, get, lift, send, modify.
  destruct (filters_payload _ _ _ _ _ _ _ _ _ _); reflexivity.
Qed.

Lemma py_getitem_not_deformed (c k : pyval) (m : string) :
  py_getitem c k <> Err (Deformed m).
Proof.
  destruct c, k; cbn; try discriminate;
    repeat match goal with
           | |- context [match ?x with _ => _ end] => destruct x
           end; discriminate.
Qed.

Lemma rmap_not_deformed {A B} (f : A -> result B) (l : list A) (m : string) :
  (forall x, f x <> Err (Deformed m)) -> rmap f l <> Err (Deformed m).
Proof.
  intros Hf. induction l as [|x l IH]; cbn; [discriminate|].
  destruct (f x) eqn:Ex; cbn; [|intros [= ->]; apply (Hf x); exact Ex].
  destruct (rmap f l); cbn; [discriminate|exact IH].
Qed.

Lemma normalize_equalizer_not_deformed (eq : pyval) (m : string) :
  normalize_equalizer eq <> Err (Deformed m).
Proof.
  destruct eq; cbn; try discriminate.
  destruct (rmap _ l) eqn:E; cbn; [discriminate|].
  intros [= ->]. revert E. apply rmap_not_deformed.
  intros i. destruct (py_getitem i (PInt 0)) eqn:E0; cbn.
  - destruct (py_getitem i (PInt 1)) eqn:E1; cbn; [discriminate|].
    rewrite <- E1. apply py_getitem_not_deformed.
  - rewrite <- E0. apply py_getitem_not_deformed.
Qed.

Lemma check_fields_deformed (inner : pyval) (fs : list string) (msg m : string) :
  check_fields inner fs msg = Err (Deformed m) -> m = msg.
Proof.
  induction fs as [|f fs IH]; cbn; [discriminate|].
  destruct (py_getitem inner (PStr f)) eqn:E; cbn.
  - destruct (is_float a); [exact IH|congruence].
  - intros [= ->]. exfalso. exact (py_getitem_not_deformed _ _ _ E).
Qed.

Lemma apply_bundle_deformed (p : message) (arg : pyval) (key : string)
  (fs : list string) (msg m : string) :
  apply_bundle p arg key fs msg = Err (Deformed m) -> m = msg /\ arg <> PNone.
Proof.
  unfold apply_bundle. destruct arg as [| | | | | | |d]; try discriminate;
  (destruct (py_getitem _ (PStr key)) eqn:E; cbn;
   [ destruct (check_fields _ fs msg) eqn:C; cbn;
     [ discriminate
     | intros [= ->]; split; [exact (check_fields_deformed _ _ _ _ C)|discriminate]]
   | intros [= ->]; exfalso; exact (py_getitem_not_deformed _ _ _ E)]).
Qed.

Lemma apply_equalizer_deformed (p : message) (eq : pyval) (m : string) :
  apply_equalizer p eq = Err (Deformed m) ->
  m = "Deformed equalizerjson" /\ eq <> PNone.
Proof.
  unfold apply_equalizer. destruct eq as [| | | | | | |d]; try discriminate;
  (destruct (py_getitem _ (PStr "equalizer")) eqn:E; cbn;
   [ destruct (is_list a);
     [ discriminate
     | intros [= ->]; split; [reflexivity|discriminate]]
   | intros [= ->]; exfalso; exact (py_getitem_not_deformed _ _ _ E)]).
Qed.

Lemma normalize_equalizer_none (eq eq' : pyval) :
  normalize_equalizer eq = Ok eq' -> eq' <> PNone -> eq <> PNone.
Proof. destruct eq; cbn; congruence. Qed.

Lemma normalize_float_none (key field : string) (v : pyval) :
  normalize_float key field v <> PNone -> v <> PNone.
Proof. destruct v; cbn; congruence. Qed.

(** The bundles of a [set_filters] call paired with the message of the
    exception their type check raises. *)
Definition bundle_messages (eq ka ts tr vi ro di cm lp : pyval)
  : list (pyval * string) :=
  [(eq, "Deformed equalizerjson"); (ka, "Deformed karaokejson");
   (ts, "Deformed timescalejson"); (tr, "Deformed tremolojson");
   (vi, "Deformed vibratojson"); (ro, "Deformed rotationjson");
   (di, "Deformed distortionjson"); (cm, "Deformed channelMix");
   (lp, "Deformed lowPassjson")].

Lemma filters_payload_deformed (gid : string) (eq ka ts tr vi ro di cm lp : pyval)
  (m : string) :
  filters_payload gid eq ka ts tr vi ro di cm lp = Err (Deformed m) ->
  exists arg, In (arg, m) (bundle_messages eq ka ts tr vi ro di cm lp) /\
              arg <> PNone.
Proof.
  unfold filters_payload, bundle_messages.
  destruct (normalize_equalizer eq) as [eq'|e] eqn:N; cbn;
    [|intros [= ->]; exfalso; exact (normalize_equalizer_not_deformed _ _ N)].
  destruct (apply_equalizer _ eq') eqn:E1; cbn;
    [|intros [= ->]; apply apply_equalizer_deformed in E1 as [-> H];
      exists eq; split; [left; reflexivity|exact (normalize_equalizer_none _ _ N H)]].
  destruct (apply_bundle _ ka _ _ _) eqn:E2; cbn;
    [|intros [= ->]; apply apply_bundle_deformed in E2 as [-> H];
      exists ka; split; [simpl; tauto|exact H]].
  destruct (apply_bundle _ ts _ _ _) eqn:E3; cbn;
    [|intros [= ->]; apply apply_bundle_deformed in E3 as [-> H];
      exists ts; split; [simpl; tauto|exact H]].
  destruct (apply_bundle _ tr _ _ _) eqn:E4; cbn;
    [|intros [= ->]; apply apply_bundle_deformed in E4 as [-> H];
      exists tr; split; [simpl; tauto|exact H]].
  destruct (apply_bundle _ vi _ _ _) eqn:E5; cbn;
    [|intros [= ->]; apply apply_bundle_deformed in E5 as [-> H];
      exists vi; split; [simpl; tauto|exact H]].
  destruct (apply_bundle _ (normalize_float _ _ ro) _ _ _) eqn:E6; cbn;
    [|intros [= ->]; apply apply_bundle_deformed in E6 as [-> H];
      exists ro; split; [simpl; tauto|exact (normalize_float_none _ _ _ H)]].
  destruct (apply_bundle _ di _ _ _) eqn:E7; cbn;
    [|intros [= ->]; apply apply_bundle_deformed in E7 as [-> H];
      exists di; split; [simpl; tauto|exact H]].
  destruct (apply_bundle _ cm _ _ _) eqn:E8; cbn;
    [|intros [= ->]; apply apply_bundle_deformed in E8 as [-> H];
      exists cm; split; [simpl; tauto|exact H]].
  destruct (apply_bundle _ (normalize_float _ _ lp) _ _ _) eqn:E9; cbn;
    [discriminate|intros [= ->]; apply apply_bundle_deformed in E9 as [-> H];
      exists lp; split; [simpl; tauto|exact (normalize_float_none _ _ _ H)]].
Qed.

(** *** The first failing check

    The checks of [set_filters] described bundle by bundle, as lookups: the
    error a supplied bundle raises, if any.  A dict bundle lacking its key
    raises [KeyError(key)]; its required fields are then looked up in order,
    and the first one missing raises [KeyError(field)], the first one
    present but not a float "Deformed <bundle>".  A value that is not a
    dict cannot be indexed by a name and raises [TypeError]. *)

Fixpoint first_bad_field (inner : pyval) (fields : list string) (msg : string)
  : option exn :=
  match fields with
  | [] => None
  | f :: fs =>
      match inner with
      | PDict d =>
          match dict_get f d with
          | None => Some (KeyError (PStr f))
          | Some v => if is_float v then first_bad_field inner fs msg
                      else Some (Deformed msg)
          end
      | _ => Some TypeError
      end
  end.

Definition bundle_error (arg : pyval) (key : string) (fields : list string)
  (msg : string) : option exn :=
  match arg with
  | PNone => None
  | PDict d =>
      match dict_get key d with
      | None => Some (KeyError (PStr key))
      | Some inner => first_bad_field inner fields msg
      end
  | _ => Some TypeError
  end.

(** The equalizer bundle, once normalized: its ["equalizer"] value must be
    a list. *)
Definition equalizer_error (eq : pyval) : option exn :=
  match eq with
  | PNone => None
  | PDict d =>
      match dict_get "equalizer" d with
      | None => Some (KeyError (PStr "equalizer"))
      | Some v => if is_list v then None
                  else Some (Deformed "Deformed equalizerjson")
      end
  | _ => Some TypeError
  end.

(** The equalizer shorthand's normalization may itself raise. *)
Definition eq_error (eq : pyval) : option exn :=
  match normalize_equalizer eq with
  | Err e => Some e
  | Ok eq' => equalizer_error eq'
  end.

(** The first error of a sequence of checks. *)
Fixpoint first_error (l : list (option exn)) : option exn :=
  match l with
  | [] => None
  | Some e :: _ => Some e
  | None :: l => first_error l
  end.

(** The error of a [set_filters] call: its bundles checked in the source's
    order, after the shorthand normalization. *)
Definition filters_first_error (eq ka ts tr vi ro di cm lp : pyval)
  : option exn :=
  first_error
    [eq_error eq;
     bundle_error ka "karaoke" ["level"; "monoLevel"; "filterBand"; "filterWidth"]
       "Deformed karaokejson";
     bundle_error ts "timescale" ["speed"; "pitch"; "rate"]
       "Deformed timescalejson";
     bundle_error tr "tremolo" ["frequency"; "depth"] "Deformed tremolojson";
     bundle_error vi "vibrato" ["frequency"; "depth"] "Deformed vibratojson";
     bundle_error (normalize_float "rotation" "rotationHz" ro) "rotation"
       ["rotationHz"] "Deformed rotationjson";
     bundle_error di "distortion"
       ["sinOffset"; "sinScale"; "cosOffset"; "cosScale";
        "tanOffset"; "tanScale"; "offset"; "scale"] "Deformed distortionjson";
     bundle_error cm "channelMix"
       ["leftToLeft"; "leftToRight"; "rightToLeft"; "rightToRight"]
       "Deformed channelMix";
     bundle_error (normalize_float "lowPass" "smoothing" lp) "lowPass"
       ["smoothing"] "Deformed lowPassjson"].

(** What a bundle that passes its checks adds to the payload. *)
Definition bundle_merge (p : message) (arg : pyval) : message :=
  match arg with PDict d => dict_update p d | _ => p end.

Lemma check_fields_first_bad (inner : pyval) (fs : list string) (msg : string) :
  check_fields inner fs msg =
  match first_bad_field inner fs msg with Some e => Err e | None => Ok tt end.
Proof.
  induction fs as [|f fs IH]; [reflexivity|].
  destruct inner as [| | | | | | |d]; try reflexivity.
  cbn [check_fields first_bad_field py_getitem].
  destruct (dict_get f d); cbn; [|reflexivity].
  destruct (is_float p); [exact IH|reflexivity].
Qed.

Lemma apply_bundle_spec (p : message) (arg : pyval) (key : string)
  (fs : list string) (msg : string) :
  apply_bundle p arg key fs msg =
  match bundle_error arg key fs msg with
  | Some e => Err e
  | None => Ok (bundle_merge p arg)
  end.
Proof.
  destruct arg as [| | | | | | |d]; try reflexivity.
  unfold apply_bundle, bundle_error. cbn [py_getitem].
  destruct (dict_get key d) as [inner|]; cbn; [|reflexivity].
  rewrite check_fields_first_bad.
  destruct (first_bad_field inner fs msg); reflexivity.
Qed.

Lemma apply_equalizer_spec (p : message) (eq : pyval) :
  apply_equalizer p eq =
  match equalizer_error eq with
  | Some e => Err e
  | None => Ok (bundle_merge p eq)
  end.
Proof.
  destruct eq as [| | | | | | |d]; try reflexivity.
  unfold apply_equalizer, equalizer_error. cbn [py_getitem].
  destruct (dict_get "equalizer" d) as [v|]; cbn; [|reflexivity].
  destruct (is_list v); reflexivity.
Qed.

Lemma filters_payload_first_error (gid : string) (eq ka ts tr vi ro di cm lp : pyval) :
  match filters_payload gid eq ka ts tr vi ro di cm lp with
  | Ok _ => None
  | Err e => Some e
  end = filters_first_error eq ka ts tr vi ro di cm lp.
Proof.
  unfold filters_payload, filters_first_error, eq_error.
  destruct (normalize_equalizer eq) as [eq'|e]; cbn [rbind first_error];
    [|reflexivity].
  rewrite apply_equalizer_spec.
  destruct (equalizer_error eq'); cbn [rbind first_error]; [reflexivity|].
  repeat (rewrite apply_bundle_spec;
          destruct (bundle_error _ _ _ _); cbn [rbind first_error];
          [reflexivity|]).
  reflexivity.
Qed.

(** The karaoke bundle of the spec's example, with the integer [level]. *)
Definition karaoke_int_level : pyval :=
  PDict [("karaoke", PDict [("level", PInt 1); ("monoLevel", PFloat (Q2F 1));
                            ("filterBand", PFloat (Q2F 220)); ("filterWidth", PFloat (Q2F 100))])].

(** C2 (as corrected): the bundles of a [set_filters] call are checked in
    order -- equalizer, karaoke, timescale, tremolo, vibrato, rotation,
    distortion, channelMix, lowPass, after the shorthand normalization --
    and the first failing check decides what is raised
    ([filters_first_error]): for a dict bundle, a missing bundle key or
    required field raises [KeyError] for it, a required field present but
    not a float raises "Deformed <bundle>", the fields being looked up in
    order.  Whenever [set_filters] raises, nothing is sent and the state is
    unchanged; a "Deformed ..." error names a supplied bundle (one whose
    argument is not [None]); the karaoke bundle with integer [level] raises
    "Deformed karaokejson" and sends nothing. *)
Theorem set_filters_error_sends_nothing (eq ka ts tr vi ro di cm lp : pyval)
  (w : world) :
  fst (set_filters eq ka ts tr vi ro di cm lp w) =
    match filters_first_error eq ka ts tr vi ro di cm lp with
    | Some e => Err e
    | None => Ok tt
    end /\
  (forall e, fst (set_filters eq ka ts tr vi ro di cm lp w) = Err e ->
     snd (set_filters eq ka ts tr vi ro di cm lp w) = w) /\
  (forall m, fst (set_filters eq ka ts tr vi ro di cm lp w) = Err (Deformed m) ->
     exists arg, In (arg, m) (bundle_messages eq ka ts tr vi ro di cm lp) /\
                 arg <> PNone) /\
  set_filters PNone karaoke_int_level PNone PNone PNone PNone PNone PNone PNone w
    = (Err (Deformed "Deformed karaokejson"), w).
Proof.
  rewrite !set_filters_eq.
  rewrite <- (filters_payload_first_error (guild_id w)).
  destruct (filters_payload _ _ _ _ _ _ _ _ _ _) eqn:P; cbn.
  - split; [reflexivity|split; [discriminate|split; [discriminate|reflexivity]]].
  - split; [reflexivity|split; [reflexivity|split; [|reflexivity]]].
    intros m [= ->]. exact (filters_payload_deformed _ _ _ _ _ _ _ _ _ _ _ P).
Qed.

(** C2: a missing required field raises Python's [KeyError] for the field,
    not the "Deformed ..." error: a tremolo bundle and a vibrato bundle each
    missing [depth] raise the very same [KeyError('depth')]; a karaoke
    bundle missing [level] raises [KeyError('level')] although its
    [monoLevel] is an int. *)
Lemma set_filters_missing_field_keyerror :
  fst (set_filters PNone PNone PNone
         (PDict [("tremolo", PDict [("frequency", PFloat (Q2F 2))])])
         PNone PNone PNone PNone PNone demo_world)
    = Err (KeyError (PStr "depth")) /\
  fst (set_filters PNone PNone PNone PNone
         (PDict [("vibrato", PDict [("frequency", PFloat (Q2F 2))])])
         PNone PNone PNone PNone demo_world)
    = Err (KeyError (PStr "depth")) /\
  fst (set_filters PNone
         (PDict [("karaoke", PDict [("monoLevel", PInt 1)])])
         PNone PNone PNone PNone PNone PNone PNone demo_world)
    = Err (KeyError (PStr "level")).
Proof. repeat split. Qed.

(** C5 (as corrected): for an equalizer bundle given as a dict, [set_filters]
    checks only that its ["equalizer"] value is a list: a list (empty, or
    with elements lacking [band] or [gain]) is merged and sent as it is,
    anything else raises "Deformed equalizerjson" and sends nothing. *)
Theorem set_filters_equalizer_list_only (d : list (string * pyval)) (v : pyval)
  (w : world) (Hv : dict_get "equalizer" d = Some v) :
  set_filters (PDict d) PNone PNone PNone PNone PNone PNone PNone PNone w =
  if is_list v
  then (Ok tt, upd_sent (sent w ++ [dict_update (filters_base (guild_id w)) d])%list w)
  else (Err (Deformed "Deformed equalizerjson"), w).
Proof.
  rewrite set_filters_eq. unfold filters_payload. cbn.
  rewrite Hv. destruct v; reflexivity.
Qed.

(** C5: an empty equalizer list and a list whose element lacks [band] are
    both sent to the node, no exception is raised. *)
Lemma set_filters_equalizer_unchecked :
  set_filters (PDict [("equalizer", PList [])])
    PNone PNone PNone PNone PNone PNone PNone PNone demo_world =
  (Ok tt, upd_sent [[("op", PStr "filters"); ("guildId", PStr "7");
                     ("equalizer", PList [])]] demo_world) /\
  set_filters (PDict [("equalizer", PList [PDict [("gain", PFloat (Q2F 0))]])])
    PNone PNone PNone PNone PNone PNone PNone PNone demo_world =
  (Ok tt, upd_sent [[("op", PStr "filters"); ("guildId", PStr "7");
                     ("equalizer", PList [PDict [("gain", PFloat (Q2F 0))]])]]
                   demo_world).
Proof. split; reflexivity. Qed.

(** Equalizer shorthand: [(band, gain)] tuples, and the canonical bands. *)
Definition eq_pairs (pairs : list (pyval * pyval)) : pyval :=
  PList (map (fun bg => PTuple [fst bg; snd bg]) pairs).

Definition eq_bands (pairs : list (pyval * pyval)) : pyval :=
  PDict [("equalizer",
          PList (map (fun bg => PDict [("band", fst bg); ("gain", snd bg)]) pairs))].

Lemma normalize_equalizer_pairs (pairs : list (pyval * pyval)) :
  normalize_equalizer (eq_pairs pairs) = Ok (eq_bands pairs).
Proof.
  unfold normalize_equalizer, eq_pairs, eq_bands.
  assert (H : forall l : list (pyval * pyval),
    rmap (fun i => b <-? py_getitem i (PInt 0) ;;
                   g <-? py_getitem i (PInt 1) ;;
                   Ok (PDict [("band", b); ("gain", g)]))
         (map (fun bg => PTuple [fst bg; snd bg]) l)
    = Ok (map (fun bg => PDict [("band", fst bg); ("gain", snd bg)]) l)).
  { induction l as [|[b g] l IH]; cbn; [reflexivity|]. rewrite IH. reflexivity. }
  rewrite H. reflexivity.
Qed.

(** C6 (as corrected): a Python list of [(band, gain)] tuples, a float
    rotation and a float lowPass are normalized to their canonical nested
    form, after which [set_filters] validates and merges them exactly as it
    does the canonical inputs (whatever the other bundles are); the spec's
    example [equalizer=[(0,-0.25),(1,0.1)]] sends the merged message. *)
Theorem set_filters_shorthand_normalized (gid : string)
  (pairs : list (pyval * pyval)) (r s : float) (eq ka ts tr vi ro di cm lp : pyval) :
  filters_payload gid (eq_pairs pairs) ka ts tr vi ro di cm lp =
    filters_payload gid (eq_bands pairs) ka ts tr vi ro di cm lp /\
  filters_payload gid eq ka ts tr vi (PFloat r) di cm lp =
    filters_payload gid eq ka ts tr vi
      (PDict [("rotation", PDict [("rotationHz", PFloat r)])]) di cm lp /\
  filters_payload gid eq ka ts tr vi ro di cm (PFloat s) =
    filters_payload gid eq ka ts tr vi ro di cm
      (PDict [("lowPass", PDict [("smoothing", PFloat s)])]) /\
  filters_payload gid
    (eq_pairs [(PInt 0, PFloat (Q2F (-1 # 4))); (PInt 1, PFloat (Q2F (1 # 10)))])
    PNone PNone PNone PNone PNone PNone PNone PNone =
    Ok [("op", PStr "filters"); ("guildId", PStr gid);
        ("equalizer", PList [PDict [("band", PInt 0); ("gain", PFloat (Q2F (-1 # 4)))];
                             PDict [("band", PInt 1); ("gain", PFloat (Q2F (1 # 10)))]])].
Proof.
  split; [|split; [|split]].
  - unfold filters_payload at 1. rewrite normalize_equalizer_pairs. reflexivity.
  - reflexivity.
  - reflexivity.
  - reflexivity.
Qed.

(** C6: the shorthands are recognised only for a Python [list] and a
    [float]: a tuple of pairs and an integer rotation are not normalized
    and raise [TypeError] when indexed, while their canonical forms are
    accepted. *)
Lemma set_filters_shorthand_type_only :
  fst (set_filters (PTuple [PTuple [PInt 0; PFloat (Q2F (1 # 2))]])
         PNone PNone PNone PNone PNone PNone PNone PNone demo_world) = Err TypeError /\
  fst (set_filters (eq_bands [(PInt 0, PFloat (Q2F (1 # 2)))])
         PNone PNone PNone PNone PNone PNone PNone PNone demo_world) = Ok tt /\
  fst (set_filters PNone PNone PNone PNone PNone (PInt 1)
         PNone PNone PNone demo_world) = Err TypeError.
Proof. repeat split. Qed.

(** ** Disconnect *)

Lemma list_remove_nodup (x : nat) (l : list nat) :
  In x l -> NoDup l -> list_remove x l = Some (remove Nat.eq_dec x l).
Proof.
  induction l as [|y l IH]; cbn; [tauto|].
  intros Hin Hnd. inversion Hnd as [|? ? Hy Hnd']; subst.
  destruct (Nat.eqb_spec x y) as [->|Hne].
  - destruct (Nat.eq_dec y y) as [_|]; [|congruence].
    rewrite notin_remove by exact Hy. reflexivity.
  - destruct Hin as [->|Hin]; [congruence|].
    rewrite (IH Hin Hnd').
    destruct (Nat.eq_dec x y); [congruence|reflexivity].
Qed.

(** C9 (as corrected): for a player registered once in its node's player
    list -- as [__init__] leaves it -- [disconnect] removes it from that
    list and runs the cleanup once, whether the leave request succeeds or
    raises; the leave request's exception, if any, is what the call raises. *)
Theorem disconnect_cleanup_registered (leave : result unit) (w : world)
  (Hin : In (w_me w) (node_players w)) (Hnd : NoDup (node_players w)) :
  fst (disconnect leave w) = leave /\
  node_players (snd (disconnect leave w)) =
    remove Nat.eq_dec (w_me w) (node_players w) /\
  ~ In (w_me w) (node_players (snd (disconnect leave w))) /\
  cleanups (snd (disconnect leave w)) = S (cleanups w).
Proof.
  pose proof (list_remove_nodup _ _ Hin Hnd) as R.
  unfold disconnect, try_finally, node_players_remove, bind, lift, modify, get.
  destruct leave as [[]|e]; cbn -[list_remove remove]; rewrite R; cbn -[remove];
    (split; [reflexivity|split; [reflexivity|split;
       [apply remove_In|reflexivity]]]).
Qed.

(** C9: cleanup is not unconditional: a second [disconnect] finds the
    player no longer in the node's list, [list.remove] raises [ValueError]
    and the cleanup does not run again. *)
Lemma disconnect_twice_skips_cleanup :
  let w1 := snd (disconnect (Ok tt) demo_world) in
  cleanups w1 = 1%nat /\
  fst (disconnect (Ok tt) w1) = Err ValueError /\
  cleanups (snd (disconnect (Ok tt) w1)) = 1%nat.
Proof. repeat split. Qed.

(** ** Position *)


















(** ** Voice handshake *)

Lemma dict_get_set_same (k : string) (v : pyval) (d : list (string * pyval)) :
  dict_get k (dict_set k v d) = Some v.
Proof.
  induction d as [|[k' v'] d IH]; cbn; [now rewrite String.eqb_refl|].
  destruct (String.eqb_spec k k') as [->|Hne]; cbn.
  - now rewrite String.eqb_refl.
  - apply String.eqb_neq in Hne. now rewrite Hne.
Qed.

Lemma dict_get_set_other (k k' : string) (v : pyval) (d : list (string * pyval)) :
  k <> k' -> dict_get k (dict_set k' v d) = dict_get k d.
Proof.
  intros Hne. induction d as [|[k'' v''] d IH]; cbn.
  - apply String.eqb_neq in Hne. now rewrite Hne.
  - destruct (String.eqb_spec k' k'') as [<-|Hne']; cbn.
    + apply String.eqb_neq in Hne. now rewrite Hne.
    + now rewrite IH.
Qed.

(** The voice-state mapping holds no key other than the two fragments. *)
Definition voice_keys_ok (vs : list (string * pyval)) : bool :=
  forallb (fun k => String.eqb k "sessionId" || String.eqb k "event") (map fst vs).

Definition both_present (vs : list (string * pyval)) : bool :=
  dict_has "sessionId" vs && dict_has "event" vs.

Lemma keys_are_session_event_ok (vs : list (string * pyval)) :
  voice_keys_ok vs = true -> keys_are_session_event vs = both_present vs.
Proof.
  unfold keys_are_session_event, both_present, voice_keys_ok.
  intros ->. reflexivity.
Qed.

Lemma voice_keys_ok_set (k : string) (v : pyval) (vs : list (string * pyval)) :
  String.eqb k "sessionId" || String.eqb k "event" = true ->
  voice_keys_ok vs = true -> voice_keys_ok (dict_set k v vs) = true.
Proof.
  unfold voice_keys_ok. intros Hk.
  induction vs as [|[k' v'] vs IH]; cbn; [now rewrite Hk|].
  intros H. apply andb_prop in H as [H1 H2].
  destruct (String.eqb k k'); cbn; rewrite H1; cbn; auto.
Qed.

Definition result_ok {A} (r : result A) : bool :=
  match r with Ok _ => true | Err _ => false end.

(** When a notification should make the player send a voice update, read
    from the claim: the fragment it carries is merged, and both keys are
    then present; a voice-state update must also carry a truthy channel id
    that the host resolves. *)
Definition dispatch_expected (resolve_channel : pyval -> result pyval)
  (n : notification) (w : world) : bool :=
  match n with
  | ServerUpdate d => both_present (dict_set "event" d (voice_state w))
  | StateUpdate d =>
      match dict_get "session_id" d, dict_get "channel_id" d with
      | Some sid, Some ch =>
          truthy ch && result_ok (resolve_channel ch)
          && both_present (dict_set "sessionId" sid (voice_state w))
      | _, _ => false
      end
  end.

Definition is_voice_update (gid : string) (sid : pyval) (m : message) : Prop :=
  dict_get "op" m = Some (PStr "voiceUpdate") /\
  dict_get "guildId" m = Some (PStr gid) /\
  dict_get "sessionId" m = Some sid /\
  dict_has "event" m = true.

Lemma handle_step (resolve_channel : pyval -> result pyval) (n : notification)
  (w : world) (Hok : voice_keys_ok (voice_state w) = true) :
  let w' := snd (handle resolve_channel n w) in
  voice_keys_ok (voice_state w') = true /\
  guild_id w' = guild_id w /\
  (if dispatch_expected resolve_channel n w
   then exists m sid, sent w' = (sent w ++ [m])%list /\
                      dict_get "sessionId" (voice_state w') = Some sid /\
                      is_voice_update (guild_id w) sid m
   else sent w' = sent w).
Proof.
  destruct w as [me ch gid np log vs lu lp vol pa so co cl]. cbn in Hok.
  destruct n as [d|d]; cbn.
  - assert (Hk : voice_keys_ok (dict_set "event" d vs) = true)
      by (apply voice_keys_ok_set; [reflexivity|exact Hok]).
    rewrite (keys_are_session_event_ok _ Hk).
    destruct (both_present (dict_set "event" d vs)) eqn:B; cbn;
      (split; [exact Hk|split; [reflexivity|]]); [|reflexivity].
    exists ([("op", PStr "voiceUpdate"); ("guildId", PStr gid)]
            ++ dict_set "event" d vs)%list.
    unfold both_present in B. apply andb_prop in B as [Bs Be].
    unfold dict_has in Bs. destruct (dict_get "sessionId" _) as [sid|] eqn:S;
      [|discriminate].
    exists sid. repeat split; cbn; try assumption.
  - unfold on_voice_state_update, bind, lift, modify, get, py_getitem.
    destruct (dict_get "session_id" d) as [sid|] eqn:Hsid; cbn;
      [|repeat split; assumption].
    assert (Hk : voice_keys_ok (dict_set "sessionId" sid vs) = true)
      by (apply voice_keys_ok_set; [reflexivity|exact Hok]).
    destruct (dict_get "channel_id" d) as [cid|] eqn:Hcid; cbn;
      [|repeat split; assumption].
    destruct (truthy cid); cbn; [|repeat split].
    destruct (resolve_channel cid) as [c|e]; cbn; [|repeat split; assumption].
    rewrite (keys_are_session_event_ok _ Hk).
    destruct (both_present (dict_set "sessionId" sid vs)) eqn:B; cbn;
      (split; [exact Hk|split; [reflexivity|]]); [|reflexivity].
    exists ([("op", PStr "voiceUpdate"); ("guildId", PStr gid)]
            ++ dict_set "event" (PDict d) (dict_set "sessionId" sid vs))%list.
    exists sid. rewrite dict_get_set_same.
    repeat split; cbn; try reflexivity.
    + rewrite dict_get_set_other by discriminate. apply dict_get_set_same.
    + unfold dict_has; cbn. now rewrite dict_get_set_same.
Qed.

Lemma run_invariant (resolve_channel : pyval -> result pyval)
  (ns : list notification) (w : world) :
  voice_keys_ok (voice_state w) = true ->
  voice_keys_ok (voice_state (run resolve_channel ns w)) = true /\
  guild_id (run resolve_channel ns w) = guild_id w.
Proof.
  revert w. induction ns as [|n ns IH]; intros w Hok; cbn; [auto|].
  destruct (handle_step resolve_channel n w Hok) as [Hok' [Hg _]].
  destruct (IH _ Hok') as [H1 H2]. split; [exact H1|congruence].
Qed.

(** C1 (as corrected): along every sequence of voice notifications
    delivered to a fresh player, a notification sends a "voiceUpdate"
    message exactly when [dispatch_expected] holds: after merging its
    fragment both [sessionId] and [event] are present, and -- for a
    voice-state update -- its [channel_id] is truthy and resolved by the
    host (a falsy [channel_id] clears the mapping instead).  It then sends
    exactly one message, with [guildId], the stored [sessionId] and an
    [event] field.  In particular a voice-server update alone sends
    nothing, and a following voice-state update with a non-empty channel
    sends exactly one such message. *)
Theorem voice_update_iff_both_present (resolve_channel : pyval -> result pyval)
  (me : nat) (chan : pyval) (gid : string) (players : list nat)
  (log : list message) :
  (forall ns n,
     let w := run resolve_channel ns (init me chan gid players log) in
     let w' := snd (handle resolve_channel n w) in
     if dispatch_expected resolve_channel n w
     then exists m sid, sent w' = (sent w ++ [m])%list /\
                        dict_get "sessionId" (voice_state w') = Some sid /\
                        is_voice_update gid sid m
     else sent w' = sent w) /\
  (forall ev d sid ch c,
     dict_get "session_id" d = Some sid ->
     dict_get "channel_id" d = Some ch ->
     truthy ch = true -> resolve_channel ch = Ok c ->
     let w1 := snd (on_voice_server_update ev (init me chan gid players log)) in
     let w2 := snd (on_voice_state_update resolve_channel d w1) in
     sent w1 = log /\
     exists m, sent w2 = (log ++ [m])%list /\ is_voice_update gid sid m).
Proof.
  split.
  - intros ns n. cbn zeta.
    destruct (run_invariant resolve_channel ns (init me chan gid players log)
                eq_refl) as [Hok Hg].
    destruct (handle_step resolve_channel n _ Hok) as [_ [_ H]].
    rewrite Hg in H. exact H.
  - intros ev d sid ch c Hsid Hch Ht Hr. cbn zeta.
    split; [reflexivity|].
    set (w1 := snd (on_voice_server_update ev (init me chan gid players log))).
    assert (Hok : voice_keys_ok (voice_state w1) = true) by reflexivity.
    destruct (handle_step resolve_channel (StateUpdate d) w1 Hok) as [_ [_ H]].
    cbn [dispatch_expected] in H. rewrite Hsid, Hch, Ht, Hr in H.
    cbn in H. destruct H as [m [sid' [Hs [Hv Hm]]]].
    exists m. split; [exact Hs|].
    assert (E : sid' = sid).
    { cbn in Hv. unfold on_voice_state_update, bind, lift, modify, get,
        py_getitem in Hv. rewrite Hsid, Hch, Ht, Hr in Hv. cbn in Hv.
      congruence. }
    subst sid'. exact Hm.
Qed.

(** C1: a voice-state update with a falsy [channel_id] sends nothing even
    though, after merging its [sessionId], both fragments are present. *)
Lemma empty_channel_both_present_no_send :
  let d := [("session_id", PStr "abc"); ("channel_id", PNone)] in
  let w1 := snd (on_voice_server_update (PDict [("token", PStr "t")])
                   (init 1 (PStr "42") "7" [] [])) in
  both_present (dict_set "sessionId" (PStr "abc") (voice_state w1)) = true /\
  sent (snd (on_voice_state_update demo_resolve d w1)) = [].
Proof. split; reflexivity. Qed.

(** On a voice-state update the message's [event] field is the voice-state
    payload itself ([{**self._voice_state, "event": data}]), not the
    voice-server event stored before. *)
Example state_update_event_field :
  let ev := PDict [("token", PStr "t")] in
  let d := [("session_id", PStr "abc"); ("channel_id", PStr "42")] in
  let w1 := snd (on_voice_server_update ev (init 1 (PStr "42") "7" [] [])) in
  sent (snd (on_voice_state_update demo_resolve d w1)) =
  [[("op", PStr "voiceUpdate"); ("guildId", PStr "7");
    ("event", PDict d); ("sessionId", PStr "abc")]].
Proof. reflexivity. Qed.

(** * Witnesses: the theorems with hypotheses applied at concrete inputs *)

Lemma play_no_replace_noop_witness :
  connected demo_world = Some true /\ source demo_world = Some demo_track /\
  play demo_search (mk_track "QBBB" (Q2F 50) false) false 0 0 demo_world
    = (Ok None, demo_world).
Proof.
  split; [reflexivity|split; [reflexivity|]].
  apply (play_no_replace_noop demo_search (mk_track "QBBB" (Q2F 50) false) 0 0
           demo_world demo_track); reflexivity.
Defined.

Lemma state_update_empty_channel_clears_witness :
  let d := [("session_id", PStr "abc"); ("channel_id", PNone)] in
  dict_get "session_id" d = Some (PStr "abc") /\
  dict_get "channel_id" d = Some PNone /\ truthy PNone = false /\
  on_voice_state_update demo_resolve d demo_world
    = (Ok tt, upd_voice_state [] demo_world).
Proof.
  cbn zeta. split; [reflexivity|split; [reflexivity|split; [reflexivity|]]].
  apply (state_update_empty_channel_clears demo_resolve _ (PStr "abc") PNone
           (PDict []) demo_world); reflexivity.
Defined.

Lemma set_filters_equalizer_list_only_witness :
  dict_get "equalizer" [("equalizer", PList [])] = Some (PList []) /\
  set_filters (PDict [("equalizer", PList [])])
    PNone PNone PNone PNone PNone PNone PNone PNone demo_world =
  (Ok tt, upd_sent [dict_update (filters_base "7") [("equalizer", PList [])]]
                   demo_world).
Proof.
  split; [reflexivity|].
  exact (set_filters_equalizer_list_only [("equalizer", PList [])] (PList [])
           demo_world eq_refl).
Defined.

Lemma disconnect_cleanup_registered_witness :
  In 1%nat (node_players demo_world) /\ NoDup (node_players demo_world) /\
  cleanups (snd (disconnect (Err HostError) demo_world)) = 1%nat.
Proof.
  assert (Hin : In (w_me demo_world) (node_players demo_world))
    by (cbn; tauto).
  assert (Hnd : NoDup (node_players demo_world))
    by (repeat constructor; cbn; intuition discriminate).
  split; [exact Hin|split; [exact Hnd|]].
  apply (disconnect_cleanup_registered (Err HostError) demo_world Hin Hnd).
Defined.

Lemma voice_update_iff_both_present_witness :
  exists m, sent (snd (on_voice_state_update demo_resolve
                    [("session_id", PStr "abc"); ("channel_id", PStr "42")]
                    (snd (on_voice_server_update (PDict [("token", PStr "t")])
                            (init 1 (PStr "42") "7" [] [])))))
            = [m] /\ is_voice_update "7" (PStr "abc") m.
Proof.
  destruct (voice_update_iff_both_present demo_resolve 1 (PStr "42") "7" [] [])
    as [_ H].
  destruct (H (PDict [("token", PStr "t")])
              [("session_id", PStr "abc"); ("channel_id", PStr "42")]
              (PStr "abc") (PStr "42") (PStr "42")
              eq_refl eq_refl eq_refl eq_refl) as [_ [m [Hs Hm]]].
  exists m. split; [exact Hs|exact Hm].
Defined.

(** * Further properties of the player *)

(** ** Float helpers *)




(** ** Node state updates *)

(** [update_state] is not atomic: it either raises before assigning
    anything, or raises after assigning [last_update] only (the position
    is read and rounded after that assignment), or assigns both
    [last_update] and [last_position]; nothing else changes. *)
Theorem update_state_effects (st : pyval) (w : world) :
  (exists e, update_state st w = (Err e, w)) \/
  (exists e lu, update_state st w = (Err e, upd_last_update (Some lu) w)) \/
  (exists lu lp, update_state st w =
     (Ok tt, upd_last_position (Some lp) (upd_last_update (Some lu) w))).
Proof.
  unfold update_state, bind, lift, modify.
  destruct (py_getitem st (PStr "state")) as [s|e]; [|left; eauto].
  destruct (py_dict_get s "time" (PInt 0)) as [t|e]; [|left; eauto].
  destruct (py_div1000 t) as [tf|e]; [|left; eauto].
  destruct (fromtimestamp_utc tf) as [lu|e]; [|left; eauto].
  destruct (py_dict_get s "position" (PInt 0)) as [p|e];
    [|right; left; eauto].
  destruct (py_div1000 p) as [pf|e]; [|right; left; eauto].
  destruct (py_round1 pf) as [lp|e]; [|right; left; eauto].
  right. right. eauto.
Qed.

(** An update whose time converts and whose position converts and rounds
    stores both. *)
Lemma update_state_ok (sd : list (string * pyval)) (tv pv : pyval)
  (lu : datetime) (pf lp : float) (w : world)
  (Ht : dict_get "time" sd = Some tv)
  (Hlu : (tf <-? py_div1000 tv ;; fromtimestamp_utc tf) = Ok lu)
  (Hp : dict_get "position" sd = Some pv)
  (Hpf : py_div1000 pv = Ok pf) (Hr : py_round1 pf = Ok lp) :
  update_state (PDict [("state", PDict sd)]) w =
  (Ok tt, upd_last_position (Some lp) (upd_last_update (Some lu) w)).
Proof.
  unfold update_state, bind, lift, modify, py_dict_get. cbn.
  rewrite Ht. destruct (py_div1000 tv) as [tf|e]; [|discriminate].
  cbn in Hlu. rewrite Hlu. cbn. rewrite Hp, Hpf. cbn. rewrite Hr. reflexivity.
Qed.

(** A node state whose time converts to a datetime but whose position is
    not a number raises, and yet [last_update] has already been set to the
    new time while [last_position] keeps its old value. *)
Theorem update_state_bad_position (sd : list (string * pyval)) (tv pv : pyval)
  (lu : datetime) (e : exn) (w : world)
  (Ht : dict_get "time" sd = Some tv)
  (Hlu : (tf <-? py_div1000 tv ;; fromtimestamp_utc tf) = Ok lu)
  (Hp : dict_get "position" sd = Some pv) (Hpv : py_div1000 pv = Err e) :
  update_state (PDict [("state", PDict sd)]) w =
  (Err e, upd_last_update (Some lu) w).
Proof.
  unfold update_state, bind, lift, modify, py_dict_get. cbn.
  rewrite Ht. destruct (py_div1000 tv) as [tf|e']; [|discriminate].
  cbn in Hlu. rewrite Hlu. cbn. rewrite Hp, Hpv. reflexivity.
Qed.

(** A node state update on a playing, paused player pins the reported
    position, at every later time, to [min(round(position / 1000, 1),
    duration)] computed in floating point. *)
Theorem update_state_then_paused_position (sd : list (string * pyval))
  (tv pv : pyval) (lu : datetime) (pf lp : float) (w : world) (tr : track)
  (now : datetime)
  (Ht : dict_get "time" sd = Some tv)
  (Hlu : (tf <-? py_div1000 tv ;; fromtimestamp_utc tf) = Ok lu)
  (Hp : dict_get "position" sd = Some pv)
  (Hpf : py_div1000 pv = Ok pf) (Hr : py_round1 pf = Ok lp)
  (Hc : connected w = Some true) (Hs : source w = Some tr)
  (Hpa : paused w = true) :
  fst (position now (snd (update_state (PDict [("state", PDict sd)]) w))) =
  Ok (PFloat (py_min lp (duration tr))).
Proof.
  rewrite (update_state_ok sd tv pv lu pf lp w Ht Hlu Hp Hpf Hr).
  destruct w as [me ch gid np log vs lu' lp' vol pa so co cl].
  cbn in Hc, Hs, Hpa. subst co so pa. reflexivity.
Qed.

(** ** Play *)

Definition play_message (gid : string) (src : track) (replace : bool)
  (start end_ : Z) : message :=
  ([("op", PStr "play"); ("guildId", PStr gid);
    ("track", PStr (track_id src)); ("noReplace", PBool (negb replace));
    ("startTime", PStr (py_str_int start))]
   ++ (if (0 <? end_)%Z then [("endTime", PStr (py_str_int end_))] else []))%list.

(** The state [play] resets before resolving the track: the interpolation
    baseline is [update_state({"state": {}})] (the epoch and position
    [0.0]) and the pause flag is cleared. *)
Definition play_reset (w : world) : world :=
  upd_paused false (upd_last_position (Some fzero) (upd_last_update (Some 0%Z) w)).

(** [play] with [replace=True] on a resolved track resets the baseline and
    the pause flag, makes the track current, sends one "play" message
    (with [noReplace] false and [endTime] only when [end > 0]) and returns
    the track; nothing else changes. *)
Theorem play_replace_effect (search_track : track -> result track)
  (src : track) (start end_ : Z) (w : world)
  (Hres : is_partial src = false) :
  play search_track src true start end_ w =
  (Ok (Some src),
   upd_sent (sent w ++ [play_message (guild_id w) src true start end_])%list
     (upd_source (Some src) (play_reset w))).
Proof.
  destruct w as [me ch gid np log vs lu lp vol pa so co cl].
  unfold play. cbn. rewrite Hres. reflexivity.
Qed.

(** When resolving a partial track raises, [play] -- with [replace=True],
    or with [replace=False] on a player that is not playing -- propagates
    the exception without sending anything and keeps the previous source,
    but the baseline and the pause flag have already been reset. *)
Theorem play_partial_search_fails (search_track : track -> result track)
  (src : track) (replace : bool) (start end_ : Z) (w : world) (e : exn)
  (Hgo : replace = true \/ fst (is_playing w) = Ok false)
  (Hpart : is_partial src = true) (Hfail : search_track src = Err e) :
  play search_track src replace start end_ w = (Err e, play_reset w).
Proof.
  destruct w as [me ch gid np log vs lu lp vol pa so co cl].
  destruct Hgo as [->|Hp].
  - unfold play. cbn. rewrite Hpart. cbn. rewrite Hfail. reflexivity.
  - destruct replace.
    + unfold play. cbn. rewrite Hpart. cbn. rewrite Hfail. reflexivity.
    + destruct co as [[]|]; [destruct so| |]; try discriminate;
        unfold play; cbn; rewrite Hpart; cbn; rewrite Hfail; reflexivity.
Qed.

(** [play(..., replace=False)] consults [is_playing()] and so raises on a
    player whose [_connected] was never assigned, before changing
    anything; [replace=True] never consults it and plays a resolved
    track. *)
Theorem play_connectivity_check (search_track : track -> result track)
  (src : track) (start end_ : Z) (w : world)
  (Hc : connected w = None) :
  play search_track src false start end_ w =
    (Err (AttributeError "_connected"), w) /\
  (is_partial src = false ->
   fst (play search_track src true start end_ w) = Ok (Some src)).
Proof.
  split.
  - destruct w as [me ch gid np log vs lu lp vol pa so co cl].
    cbn in Hc. subst co. reflexivity.
  - intros Hres. rewrite (play_replace_effect search_track src start end_ w Hres).
    reflexivity.
Qed.


(** ** Stop, pause, seek *)

(** [stop()] sends one "stop" message and clears the source, so a player
    whose [_connected] is assigned is no longer playing and reports
    position [0]. *)
Theorem stop_ends_playback (w : world) (c : bool) (now : datetime)
  (Hc : connected w = Some c) :
  sent (snd (stop w)) =
    (sent w ++ [[("op", PStr "stop"); ("guildId", PStr (guild_id w))]])%list /\
  fst (is_playing (snd (stop w))) = Ok false /\
  fst (position now (snd (stop w))) = Ok (PInt 0).
Proof.
  destruct w as [me ch gid np log vs lu lp vol pa so co cl].
  cbn in Hc. subst co. cbn. destruct c; repeat split.
Qed.

(** After [pause()] a playing player reports the same position at every
    time, [min(last_position, duration)]; after [resume()] it extrapolates
    again from the last node update, [min(round(last_position + elapsed
    seconds, 1), duration)] in floating point.  Each sends one "pause"
    message. *)
Theorem pause_pins_resume_extrapolates (w : world) (tr : track)
  (lu : datetime) (lp : float) (now : datetime)
  (Hc : connected w = Some true) (Hs : source w = Some tr)
  (Hlu : last_update w = Some lu) (Hlp : last_position w = Some lp) :
  fst (position now (snd (pause w))) = Ok (PFloat (py_min lp (duration tr))) /\
  fst (position now (snd (resume w))) =
    (pos <-? py_round1 (fadd lp (total_seconds (now - lu))) ;;
     Ok (PFloat (py_min pos (duration tr)))) /\
  sent (snd (pause w)) =
    (sent w ++ [[("op", PStr "pause"); ("guildId", PStr (guild_id w));
                 ("pause", PBool true)]])%list /\
  sent (snd (resume w)) =
    (sent w ++ [[("op", PStr "pause"); ("guildId", PStr (guild_id w));
                 ("pause", PBool false)]])%list.
Proof.
  destruct w as [me ch gid np log vs lu' lp' vol pa so co cl].
  cbn in Hc, Hs, Hlu, Hlp. subst co so lu' lp'.
  split; [reflexivity|split; [|split; reflexivity]].
  unfold position, is_playing, is_paused, is_connected, bind, get, ret, raise, lift.
  cbn -[fadd total_seconds py_round1 py_min].
  destruct (py_round1 _); reflexivity.
Qed.

(** [seek(pos)] forwards [pos] in one "seek" message and changes no local
    state, so the locally reported position is the same as before the
    call. *)
Theorem seek_keeps_local_position (pos : pyval) (w : world) (now : datetime) :
  sent (snd (seek pos w)) =
    (sent w ++ [[("op", PStr "seek"); ("guildId", PStr (guild_id w));
                 ("position", pos)]])%list /\
  fst (position now (snd (seek pos w))) = fst (position now w) /\
  fst (is_playing (snd (seek pos w))) = fst (is_playing w).
Proof.
  destruct w as [me ch gid np log vs lu lp vol pa so co cl].
  split; [reflexivity|].
  unfold position, is_playing, is_paused, is_connected, bind, get, ret, raise, lift.
  destruct co as [[]|], so, pa, lu, lp;
    cbn -[fadd total_seconds py_round1 py_min]; split; try reflexivity;
    destruct (py_round1 _); reflexivity.
Qed.

(** ** Connect and disconnect *)

(** After a [disconnect] whose leave request succeeds the player is not
    playing and reports position [0] (whether or not the deregistration
    then succeeds).  When the leave request raises, [_connected] keeps its
    previous value: a player that was playing still reports playing,
    although it has been deregistered. *)
Theorem disconnect_connectivity (w : world) (now : datetime) (e : exn) :
  fst (is_playing (snd (disconnect (Ok tt) w))) = Ok false /\
  fst (position now (snd (disconnect (Ok tt) w))) = Ok (PInt 0) /\
  connected (snd (disconnect (Err e) w)) = connected w /\
  source (snd (disconnect (Err e) w)) = source w.
Proof.
  destruct w as [me ch gid np log vs lu lp vol pa so co cl].
  unfold disconnect, try_finally, node_players_remove, bind, lift, modify, get.
  cbn -[list_remove].
  destruct (list_remove me np); repeat split.
Qed.

(** A [connect] whose join request raises assigns nothing: on a fresh
    player [is_connected()] still raises. *)
Theorem connect_failure_keeps_unassigned (me : nat) (chan : pyval)
  (gid : string) (players : list nat) (log : list message) (e : exn) :
  let w := init me chan gid players log in
  connect (Err e) w = (Err e, w) /\
  fst (is_connected (snd (connect (Err e) w))) = Err (AttributeError "_connected").
Proof. split; reflexivity. Qed.

(** ** Filter wrappers *)

(** [set_filters()] with no bundle at all still sends a "filters" message
    holding only [op] and [guildId]. *)
Theorem set_filters_no_bundle (w : world) :
  set_filters PNone PNone PNone PNone PNone PNone PNone PNone PNone w =
  (Ok tt, upd_sent (sent w ++ [filters_base (guild_id w)])%list w).
Proof. reflexivity. Qed.

(** Every required field of a bundle holds a float. *)
Definition all_floats (inner : list (string * pyval)) (fs : list string) : Prop :=
  forall f, In f fs -> exists q, dict_get f inner = Some (PFloat q).

Lemma check_fields_floats (inner : list (string * pyval)) (fs : list string)
  (msg : string) :
  all_floats inner fs -> check_fields (PDict inner) fs msg = Ok tt.
Proof.
  unfold all_floats. induction fs as [|f fs IH]; intros H; cbn; [reflexivity|].
  destruct (H f (or_introl eq_refl)) as [q Hq]. rewrite Hq. cbn.
  apply IH. intros f' Hin. apply H. right. exact Hin.
Qed.

Lemma apply_bundle_floats (p : message) (d : list (string * pyval))
  (inner : list (string * pyval)) (key : string) (fs : list string) (msg : string)
  (Hk : dict_get key d = Some (PDict inner)) (Hf : all_floats inner fs) :
  apply_bundle p (PDict d) key fs msg = Ok (dict_update p d).
Proof.
  unfold apply_bundle. cbn. rewrite Hk. cbn.
  rewrite (check_fields_floats _ _ _ Hf). reflexivity.
Qed.

Lemma apply_bundle_none (p : message) (key : string) (fs : list string)
  (msg : string) :
  apply_bundle p PNone key fs msg = Ok p.
Proof. reflexivity. Qed.

(** A single-bundle wrapper [set] sends, for a bundle [{key: inner}] whose
    required [fields] all hold floats, one "filters" message: [op],
    [guildId] and the bundle. *)
Definition sends_valid_bundle (set : pyval -> M unit) (key : string)
  (fs : list string) : Prop :=
  forall inner w, all_floats inner fs ->
  set (PDict [(key, PDict inner)]) w =
  (Ok tt, upd_sent (sent w ++ [filters_base (guild_id w) ++ [(key, PDict inner)]])%list w).

Ltac bundle_steps Hf :=
  cbn -[apply_bundle];
  repeat (first [ rewrite apply_bundle_none
                | erewrite apply_bundle_floats by (reflexivity || exact Hf) ];
          cbn -[apply_bundle]);
  reflexivity.

Ltac wrapper_sends :=
  intros inner w Hf;
  unfold set_karaoke, set_timescale, set_tremolo, set_vibrato, set_rotation,
    set_distortion, set_channelMix, set_lowPass;
  rewrite set_filters_eq; unfold filters_payload;
  bundle_steps Hf.

(** The wrappers [set_karaoke], [set_timescale], [set_tremolo],
    [set_vibrato], [set_rotation], [set_distortion], [set_channelMix] and
    [set_lowPass] each send their bundle, unchanged, when every field their
    check reads is a float. *)
Theorem wrappers_send_valid_bundles :
  sends_valid_bundle set_karaoke "karaoke"
    ["level"; "monoLevel"; "filterBand"; "filterWidth"] /\
  sends_valid_bundle set_timescale "timescale" ["speed"; "pitch"; "rate"] /\
  sends_valid_bundle set_tremolo "tremolo" ["frequency"; "depth"] /\
  sends_valid_bundle set_vibrato "vibrato" ["frequency"; "depth"] /\
  sends_valid_bundle set_rotation "rotation" ["rotationHz"] /\
  sends_valid_bundle set_distortion "distortion"
    ["sinOffset"; "sinScale"; "cosOffset"; "cosScale";
     "tanOffset"; "tanScale"; "offset"; "scale"] /\
  sends_valid_bundle set_channelMix "channelMix"
    ["leftToLeft"; "leftToRight"; "rightToLeft"; "rightToRight"] /\
  sends_valid_bundle set_lowPass "lowPass" ["smoothing"].
Proof.
  repeat split; unfold sends_valid_bundle; wrapper_sends.
Qed.

(** A bundle is merged into the payload as a whole: keys next to the
    bundle's own key are sent as well and override the payload's, so a
    [set_karaoke] argument carrying an ["op"] key replaces the message's
    operation. *)
Theorem set_karaoke_extra_keys_override (inner : list (string * pyval))
  (v : pyval) (w : world)
  (Hf : all_floats inner ["level"; "monoLevel"; "filterBand"; "filterWidth"]) :
  set_karaoke (PDict [("karaoke", PDict inner); ("op", v)]) w =
  (Ok tt, upd_sent (sent w ++ [[("op", v); ("guildId", PStr (guild_id w));
                                ("karaoke", PDict inner)]])%list w).
Proof.
  unfold set_karaoke. rewrite set_filters_eq. unfold filters_payload.
  bundle_steps Hf.
Qed.

(** ** Voice handshake, continued *)

Lemma keys_are_session_event_set_event (ev : pyval) (vs : list (string * pyval)) :
  keys_are_session_event vs = true ->
  keys_are_session_event (dict_set "event" ev vs) = true.
Proof.
  intros H.
  assert (Hok : voice_keys_ok vs = true).
  { unfold keys_are_session_event in H. apply andb_prop in H as [H _].
    apply andb_prop in H as [H _]. exact H. }
  rewrite keys_are_session_event_ok in H by exact Hok.
  rewrite keys_are_session_event_ok by (apply voice_keys_ok_set; auto).
  unfold both_present, dict_has in *.
  rewrite dict_get_set_same, dict_get_set_other by discriminate.
  apply andb_prop in H as [H _]. rewrite H. reflexivity.
Qed.

(** The voice-state mapping is never reset after a completed handshake
    (only an empty [channel_id] clears it), so once it holds exactly
    [sessionId] and [event], every later voice-server update sends a
    "voiceUpdate" again, carrying the new event. *)
Theorem server_update_redispatch (ev : pyval) (w : world)
  (Hk : keys_are_session_event (voice_state w) = true) :
  let vs := dict_set "event" ev (voice_state w) in
  on_voice_server_update ev w =
  (Ok tt, upd_sent (sent w ++ [voice_update_base w ++ vs])%list
            (upd_voice_state vs w)).
Proof.
  cbn zeta.
  destruct w as [me ch gid np log vs lu lp vol pa so co cl].
  cbn in Hk.
  unfold on_voice_server_update, dispatch_voice_update, bind, modify, get.
  cbn. rewrite (keys_are_session_event_set_event ev vs Hk). reflexivity.
Qed.

(** [move_to] leaves the player as it is, whatever the host's request
    does; the [channel] attribute follows only the host's voice-state
    update, which stores the channel its non-empty [channel_id] resolves
    to. *)
Theorem move_to_then_state_update (resolve_channel : pyval -> result pyval)
  (change : result unit) (data : list (string * pyval)) (sid cid c : pyval)
  (w : world)
  (Hsid : dict_get "session_id" data = Some sid)
  (Hcid : dict_get "channel_id" data = Some cid)
  (Htr : truthy cid = true) (Hres : resolve_channel cid = Ok c) :
  snd (move_to change w) = w /\
  channel (snd (on_voice_state_update resolve_channel data w)) = c.
Proof.
  split; [destruct change; reflexivity|].
  unfold on_voice_state_update, dispatch_voice_update, bind, lift, modify, get.
  cbn. rewrite Hsid. cbn. rewrite Hcid. cbn. rewrite Htr. cbn. rewrite Hres.
  cbn. destruct (keys_are_session_event _); reflexivity.
Qed.

(** * Witnesses of the further properties *)

Definition demo_state : list (string * pyval) :=
  [("time", PInt 5000); ("position", PInt 1150)].

Definition demo_bad_state : list (string * pyval) :=
  [("time", PInt 5000); ("position", PStr "x")].


Definition demo_karaoke : list (string * pyval) :=
  [("level", PFloat (Q2F 1)); ("monoLevel", PFloat (Q2F 1));
   ("filterBand", PFloat (Q2F 220)); ("filterWidth", PFloat (Q2F 100))].

Lemma demo_karaoke_floats :
  all_floats demo_karaoke ["level"; "monoLevel"; "filterBand"; "filterWidth"].
Proof.
  intros f Hin. cbn in Hin.
  destruct Hin as [<-|[<-|[<-|[<-|[]]]]]; eexists; reflexivity.
Qed.

Lemma update_state_bad_position_witness :
  (tf <-? py_div1000 (PInt 5000) ;; fromtimestamp_utc tf) = Ok 5000000%Z /\
  update_state (PDict [("state", PDict demo_bad_state)]) demo_world =
  (Err TypeError, upd_last_update (Some 5000000%Z) demo_world).
Proof.
  split; [vm_compute; reflexivity|].
  apply (update_state_bad_position demo_bad_state (PInt 5000) (PStr "x")
           5000000%Z TypeError demo_world); vm_compute; reflexivity.
Defined.

Lemma update_state_then_paused_position_witness :
  py_round1 (Q2F (1150 # 1000)) = Ok (Q2F (11 # 10)) /\
  fst (position 50000000%Z
         (snd (update_state (PDict [("state", PDict demo_state)])
                 (upd_paused true demo_world)))) =
  Ok (PFloat (py_min (Q2F (11 # 10)) (duration demo_track))) /\
  py_min (Q2F (11 # 10)) (duration demo_track) = Q2F (11 # 10).
Proof.
  split; [vm_compute; reflexivity|split; [|vm_compute; reflexivity]].
  apply (update_state_then_paused_position demo_state (PInt 5000) (PInt 1150)
           5000000%Z (Q2F (1150 # 1000)) (Q2F (11 # 10))
           (upd_paused true demo_world) demo_track 50000000%Z);
    vm_compute; reflexivity.
Defined.

Lemma play_replace_effect_witness :
  is_partial (mk_track "QBBB" (Q2F 50) false) = false /\
  play demo_search (mk_track "QBBB" (Q2F 50) false) true 0 3000 demo_world =
  (Ok (Some (mk_track "QBBB" (Q2F 50) false)),
   upd_sent (sent demo_world ++
             [play_message (guild_id demo_world) (mk_track "QBBB" (Q2F 50) false)
                true 0 3000])%list
     (upd_source (Some (mk_track "QBBB" (Q2F 50) false)) (play_reset demo_world))).
Proof.
  split; [reflexivity|].
  apply (play_replace_effect demo_search (mk_track "QBBB" (Q2F 50) false) 0 3000
           demo_world); reflexivity.
Defined.

Lemma play_partial_search_fails_witness :
  fst (is_playing (upd_source None demo_world)) = Ok false /\
  play (fun _ => Err HostError) (mk_track "QP" fzero true) false 0 0
    (upd_source None demo_world) =
  (Err HostError, play_reset (upd_source None demo_world)).
Proof.
  split; [reflexivity|].
  apply (play_partial_search_fails (fun _ => Err HostError)
           (mk_track "QP" fzero true) false 0 0 (upd_source None demo_world)
           HostError); [right| |]; reflexivity.
Defined.

Lemma play_connectivity_check_witness :
  let w := init 1 (PStr "42") "7" [] [] in
  connected w = None /\
  play demo_search demo_track false 0 0 w =
    (Err (AttributeError "_connected"), w) /\
  (is_partial demo_track = false ->
   fst (play demo_search demo_track true 0 0 w) = Ok (Some demo_track)).
Proof.
  cbn zeta. split; [reflexivity|].
  apply (play_connectivity_check demo_search demo_track 0 0
           (init 1 (PStr "42") "7" [] [])); reflexivity.
Defined.


Lemma stop_ends_playback_witness :
  connected demo_world = Some true /\
  sent (snd (stop demo_world)) =
    (sent demo_world ++
     [[("op", PStr "stop"); ("guildId", PStr (guild_id demo_world))]])%list /\
  fst (is_playing (snd (stop demo_world))) = Ok false /\
  fst (position 20000000%Z (snd (stop demo_world))) = Ok (PInt 0).
Proof.
  split; [reflexivity|].
  apply (stop_ends_playback demo_world true 20000000%Z); reflexivity.
Defined.

Lemma pause_pins_resume_extrapolates_witness :
  last_update demo_world = Some 10000000%Z /\
  fst (position 10150000%Z (snd (pause demo_world))) =
    Ok (PFloat (py_min fzero (duration demo_track))) /\
  fst (position 10150000%Z (snd (resume demo_world))) =
    (pos <-? py_round1 (fadd fzero (total_seconds (10150000 - 10000000))) ;;
     Ok (PFloat (py_min pos (duration demo_track)))) /\
  py_round1 (fadd fzero (total_seconds (10150000 - 10000000))) =
    Ok (Q2F (1 # 10)).
Proof.
  split; [reflexivity|].
  destruct (pause_pins_resume_extrapolates demo_world demo_track 10000000%Z fzero
              10150000%Z eq_refl eq_refl eq_refl eq_refl) as [H1 [H2 _]].
  split; [exact H1|split; [exact H2|vm_compute; reflexivity]].
Defined.

Lemma wrappers_send_valid_bundles_witness :
  all_floats demo_karaoke ["level"; "monoLevel"; "filterBand"; "filterWidth"] /\
  set_karaoke (PDict [("karaoke", PDict demo_karaoke)]) demo_world =
  (Ok tt, upd_sent (sent demo_world ++
                    [filters_base (guild_id demo_world) ++
                     [("karaoke", PDict demo_karaoke)]])%list demo_world).
Proof.
  split; [exact demo_karaoke_floats|].
  exact (proj1 wrappers_send_valid_bundles demo_karaoke demo_world
           demo_karaoke_floats).
Defined.

Lemma set_karaoke_extra_keys_override_witness :
  all_floats demo_karaoke ["level"; "monoLevel"; "filterBand"; "filterWidth"] /\
  set_karaoke (PDict [("karaoke", PDict demo_karaoke); ("op", PStr "stop")])
    demo_world =
  (Ok tt, upd_sent (sent demo_world ++
                    [[("op", PStr "stop"); ("guildId", PStr (guild_id demo_world));
                      ("karaoke", PDict demo_karaoke)]])%list demo_world).
Proof.
  split; [exact demo_karaoke_floats|].
  exact (set_karaoke_extra_keys_override demo_karaoke (PStr "stop") demo_world
           demo_karaoke_floats).
Defined.

Lemma server_update_redispatch_witness :
  let w := upd_voice_state [("sessionId", PStr "abc"); ("event", PDict [])]
             demo_world in
  keys_are_session_event (voice_state w) = true /\
  let vs := dict_set "event" (PDict [("token", PStr "t2")]) (voice_state w) in
  on_voice_server_update (PDict [("token", PStr "t2")]) w =
  (Ok tt, upd_sent (sent w ++ [voice_update_base w ++ vs])%list
            (upd_voice_state vs w)).
Proof.
  cbn zeta. split; [reflexivity|].
  apply (server_update_redispatch (PDict [("token", PStr "t2")])
           (upd_voice_state [("sessionId", PStr "abc"); ("event", PDict [])]
              demo_world)); reflexivity.
Defined.

Lemma move_to_then_state_update_witness :
  let d := [("session_id", PStr "abc"); ("channel_id", PStr "99")] in
  truthy (PStr "99") = true /\
  snd (move_to (Ok tt) demo_world) = demo_world /\
  channel (snd (on_voice_state_update demo_resolve d demo_world)) = PStr "99".
Proof.
  cbn zeta. split; [reflexivity|].
  apply (move_to_then_state_update demo_resolve (Ok tt)
           [("session_id", PStr "abc"); ("channel_id", PStr "99")]
           (PStr "abc") (PStr "99") (PStr "99") demo_world); reflexivity.
Defined.
